(** * Scholarship rule engine: [evaluate_condition] and [apply_rules]

    A shallow embedding of the rule engine of [SD23041_LR3.py] (lines
    118-163) together with the Python built-ins it calls, and the
    properties of the engine stated in the specification.

    Conventions of the embedding:
    - a Python [float] is an IEEE 754 binary64 value, modelled by the
      Standard Library's [spec_float] at precision 53 and exponent bound
      1024; comparisons are [SFeqb], [SFltb] and [SFleb];
    - a Python [int] is a [Z];
    - a Python [str] is a [string] whose characters are the code points
      U+0000 to U+00FF;
    - an exception that leaves a function is the [Raise] result;
    - [condition : List[Any]] is a list of JSON scalars, [facts :
      Dict[str, float]] is a [gmap string spec_float], and a rule record is
      a [rule] whose optional fields are the keys that may be absent. *)

From Stdlib Require Import ZArith List String Ascii Bool Lia.
From Stdlib Require Import DecimalString Permutation Sorted.
From Stdlib Require Import SpecFloat.
From stdpp Require Import gmap strings list fin_maps.

Local Open Scope Z_scope.

(** ** Results and exceptions *)

Inductive exn := ValueError | TypeError | OverflowError | AttributeError.

Inductive result (A : Type) :=
| Ok (a : A)
| Raise (e : exn).
Arguments Ok {A} a.
Arguments Raise {A} e.

#[global] Instance result_ret : MRet result := fun A a => Ok a.

#[global] Instance result_bind : MBind result := fun A B k m =>
  match m with
  | Ok a => k a
  | Raise e => Raise e
  end.

(** ** Python string built-ins *)

Module PyStr.

Definition code (c : ascii) : N := N_of_ascii c.

(** [str.isspace] on one character: TAB..CR, FS..US, space, NEL, NBSP. *)
Definition isspace (c : ascii) : bool :=
  let n := code c in
  ((9 <=? n) && (n <=? 13) || (28 <=? n) && (n <=? 32)
   || (n =? 133) || (n =? 160))%N.

(** ASCII decimal digit. *)
Definition is_dec (c : ascii) : bool :=
  let n := code c in ((48 <=? n) && (n <=? 57))%N.

(** [str.isdigit] on one character: the decimal digits and the
    superscripts two, three and one. *)
Definition isdigit_char (c : ascii) : bool :=
  let n := code c in
  (is_dec c || (n =? 178) || (n =? 179) || (n =? 185))%N.

(** Removal of the leading and of the trailing characters that satisfy
    [p]. *)
Fixpoint lstrip_by (p : ascii -> bool) (s : string) : string :=
  match s with
  | String c s' => if p c then lstrip_by p s' else s
  | EmptyString => EmptyString
  end.

Fixpoint rstrip_by (p : ascii -> bool) (s : string) : string :=
  match s with
  | EmptyString => EmptyString
  | String c s' =>
      match rstrip_by p s' with
      | EmptyString => if p c then EmptyString else String c EmptyString
      | r => String c r
      end
  end.

Definition strip_by (p : ascii -> bool) (s : string) : string :=
  rstrip_by p (lstrip_by p s).

(** [s.strip()] *)
Definition strip (s : string) : string := strip_by isspace s.

(** [c in s] for a one-character [c]. *)
Fixpoint contains (c : ascii) (s : string) : bool :=
  match s with
  | EmptyString => false
  | String d s' => Ascii.eqb c d || contains c s'
  end.

(** [s.replace(old, new)] for a one-character [old]. *)
Fixpoint replace (old : ascii) (new : string) (s : string) : string :=
  match s with
  | EmptyString => EmptyString
  | String d s' =>
      if Ascii.eqb old d then String.append new (replace old new s')
      else String d (replace old new s')
  end.

Fixpoint all_chars (p : ascii -> bool) (s : string) : bool :=
  match s with
  | EmptyString => true
  | String c s' => p c && all_chars p s'
  end.

(** [s.isdigit()]: at least one character, and all of them digits. *)
Definition isdigit (s : string) : bool :=
  match s with
  | EmptyString => false
  | _ => all_chars isdigit_char s
  end.

(** [str(n)] for an [int], without the limit that recent interpreters
    put on the number of digits. *)
Definition of_int (z : Z) : string := NilZero.string_of_int (Z.to_int z).

End PyStr.

(** ** Python float conversions *)

Module PyFloat.

Definition prec : Z := 53.
Definition emax : Z := 1024.

Definition nan : spec_float := S754_nan.
Definition inf (neg : bool) : spec_float := S754_infinity neg.

(** The binary64 value nearest to [(-1)^neg * d * 10^e10], ties to even;
    infinity when it is out of range. *)
Definition of_decimal (neg : bool) (d : Z) (e10 : Z) : spec_float :=
  match d with
  | Zpos m =>
      if 0 <=? e10 then
        binary_normalize prec emax (cond_Zopp neg (d * 10 ^ e10)) 0 neg
      else
        let '(q, e, l) :=
          SFdiv_core_binary prec emax d 0 (10 ^ (- e10)) 0 in
        binary_round_aux prec emax neg q e l
  | _ => S754_zero neg
  end.

(** [float(n)] for an [int]: correctly rounded, [OverflowError] when the
    rounded value is not finite. *)
Definition of_int (z : Z) : result spec_float :=
  match binary_normalize prec emax z 0 false with
  | S754_infinity _ => Raise OverflowError
  | f => Ok f
  end.

Definition of_bool (b : bool) : result spec_float :=
  of_int (if b then 1 else 0).

(** *** The text accepted by [float(s)] *)

Definition digit_val (c : ascii) : Z := Z.of_N (PyStr.code c) - 48.

(** Reads a run of decimal digits: the value accumulated on [acc], the
    number of digits read, and the rest of the text. *)
Fixpoint scan_digits (acc : Z) (n : Z) (s : list ascii)
  : Z * Z * list ascii :=
  match s with
  | c :: s' =>
      if PyStr.is_dec c then scan_digits (10 * acc + digit_val c) (n + 1) s'
      else (acc, n, s)
  | [] => (acc, n, s)
  end.

Definition scan_sign (s : list ascii) : bool * list ascii :=
  match s with
  | "-"%char :: s' => (true, s')
  | "+"%char :: s' => (false, s')
  | _ => (false, s)
  end.

(** The exponent part: consumed only when it has at least one digit. *)
Definition scan_exponent (s : list ascii) : Z * list ascii :=
  match s with
  | c :: s' =>
      if Ascii.eqb c "e" || Ascii.eqb c "E" then
        let '(neg, s1) := scan_sign s' in
        let '(v, n, s2) := scan_digits 0 0 s1 in
        if n =? 0 then (0, s) else (cond_Zopp neg v, s2)
      else (0, s)
  | [] => (0, s)
  end.

(** Decimal text: sign, digits with an optional point (at least one
    digit), optional exponent. Gives the sign, the digits as an integer,
    the decimal exponent and the text that follows. *)
Definition scan_decimal (s : list ascii)
  : option (bool * Z * Z * list ascii) :=
  let '(neg, s0) := scan_sign s in
  let '(ip, n1, s1) := scan_digits 0 0 s0 in
  let '(d, n2, s2) :=
    match s1 with
    | "."%char :: s1' => scan_digits ip 0 s1'
    | _ => (ip, 0, s1)
    end in
  if n1 + n2 =? 0 then None
  else
    let '(e, s3) := scan_exponent s2 in
    Some (neg, d, e - n2, s3).

Definition lower (c : ascii) : ascii :=
  let n := PyStr.code c in
  if ((65 <=? n) && (n <=? 90))%N then ascii_of_N (n + 32) else c.

(** Case-insensitive prefix match; gives the text after the prefix. *)
Fixpoint match_prefix (t : list ascii) (s : list ascii)
  : option (list ascii) :=
  match t, s with
  | [], _ => Some s
  | a :: t', c :: s' =>
      if Ascii.eqb (lower c) a then match_prefix t' s' else None
  | _ :: _, [] => None
  end.

(** "inf", "infinity" and "nan" with an optional sign. *)
Definition scan_inf_nan (s : list ascii) : option (spec_float * list ascii) :=
  let '(neg, s0) := scan_sign s in
  match match_prefix (list_ascii_of_string "inf") s0 with
  | Some s1 =>
      match match_prefix (list_ascii_of_string "inity") s1 with
      | Some s2 => Some (inf neg, s2)
      | None => Some (inf neg, s1)
      end
  | None =>
      match match_prefix (list_ascii_of_string "nan") s0 with
      | Some s1 => Some (nan, s1)
      | None => None
      end
  end.

(** Underscores may only stand between two digits; they are removed. *)
Fixpoint drop_underscores (prev : ascii) (s : list ascii)
  : option (list ascii) :=
  match s with
  | [] => if Ascii.eqb prev "_" then None else Some []
  | c :: s' =>
      if Ascii.eqb c "_" then
        if PyStr.is_dec prev then drop_underscores c s' else None
      else if Ascii.eqb prev "_" && negb (PyStr.is_dec c) then None
      else option_map (cons c) (drop_underscores c s')
  end.

(** White space that [float] removes around the text. *)
Definition is_blank (c : ascii) : bool :=
  let n := PyStr.code c in
  ((9 <=? n) && (n <=? 13) || (n =? 32) || (n =? 133) || (n =? 160))%N.

(** [float(s)] for a [str]: [None] is [ValueError]. *)
Definition of_str (s : string) : option spec_float :=
  match drop_underscores Ascii.zero
          (list_ascii_of_string (PyStr.strip_by is_blank s)) with
  | None => None
  | Some t =>
      match scan_decimal t with
      | Some (neg, d, e10, []) => Some (of_decimal neg d e10)
      | Some (_, _, _, _ :: _) => None
      | None =>
          match scan_inf_nan t with
          | Some (f, []) => Some f
          | _ => None
          end
      end
  end.

(** The value of a decimal literal, as the JSON reader and the Python
    parser build it. *)
Definition lit (s : string) : spec_float := default nan (of_str s).

(** *** The text of a float *)

(** [num / den / 10^k] as a fraction of integers. *)
Definition scaled (num den k : Z) : Z * Z :=
  if 0 <=? k then (num, den * 10 ^ k) else (num * 10 ^ (- k), den).

(** [floor (num / den / 10^k)] and whether the division is exact. *)
Definition scaled_floor (num den k : Z) : Z * bool :=
  let '(n, d) := scaled num den k in (n / d, n mod d =? 0).

(** Twice the fractional part of [num / den / 10^k] compared with one. *)
Definition scaled_half (num den k : Z) : comparison :=
  let '(n, d) := scaled num den k in (2 * (n mod d)) ?= d.

(** Does the decimal [d * 10^k] read back as the float [m * 2^e]? *)
Definition round_trips (m : positive) (e : Z) (d k : Z) : bool :=
  SFeqb (of_decimal false d k) (S754_finite false m e).

(** Decimal exponent of the leading digit: [10^E <= num/den < 10^(E+1)].
    The estimate from the binary logarithms is off by one at most. *)
Definition exponent10 (num den : Z) : Z :=
  let t := (Z.log2 num - Z.log2 den) * 30103 / 100000 in
  if 1 <=? fst (scaled_floor num den (t + 1)) then t + 1
  else if 1 <=? fst (scaled_floor num den t) then t
  else t - 1.

(** The shortest decimal that reads back as the float, the nearest one
    when two of that length do; [n] digits are tried, from one up to
    seventeen. *)
Fixpoint shortest (fuel : nat) (n : Z) (m : positive) (e : Z)
    (num den e10 : Z) : Z * Z :=
  let k := e10 - n + 1 in
  let '(lo, exact) := scaled_floor num den k in
  let hi := lo + 1 in
  let nearest :=
    match scaled_half num den k with
    | Lt => lo
    | Gt => hi
    | Eq => if Z.even lo then lo else hi
    end in
  match fuel with
  | O => (nearest, k)
  | S fuel' =>
      let oklo := round_trips m e lo k in
      let okhi := negb exact && round_trips m e hi k in
      if oklo && okhi then (nearest, k)
      else if oklo then (lo, k)
      else if okhi then (hi, k)
      else shortest fuel' (n + 1) m e num den e10
  end.

(** Trailing zeros of the digits go to the exponent. *)
Fixpoint strip_zeros (fuel : nat) (d k : Z) : Z * Z :=
  match fuel with
  | O => (d, k)
  | S fuel' =>
      if (d mod 10 =? 0) && negb (d =? 0)
      then strip_zeros fuel' (d / 10) (k + 1)
      else (d, k)
  end.

Definition zeros (n : Z) : string :=
  string_of_list_ascii (repeat "0"%char (Z.to_nat n)).

(** The exponent with its sign and two digits at least. *)
Definition exp_text (x : Z) : string :=
  let sign : string := if x <? 0 then "-" else "+" in
  let pad : string := if Z.abs x <? 10 then "0" else "" in
  (sign ++ pad ++ PyStr.of_int (Z.abs x))%string.

(** Fixed notation when the decimal point falls within the digits or
    close to them, exponent notation otherwise. *)
Definition format_short (ds : string) (k : Z) : string :=
  let n := Z.of_nat (String.length ds) in
  let decpt := n + k in
  if (decpt <=? -4) || (16 <? decpt) then
    match ds with
    | String c EmptyString =>
        (String c EmptyString ++ "e" ++ exp_text (decpt - 1))%string
    | String c rest =>
        (String c ("." ++ rest) ++ "e" ++ exp_text (decpt - 1))%string
    | EmptyString => EmptyString
    end
  else if decpt <=? 0 then ("0." ++ zeros (- decpt) ++ ds)%string
  else if n <=? decpt then (ds ++ zeros (decpt - n) ++ ".0")%string
  else
    let whole := String.substring 0 (Z.to_nat decpt) ds in
    let frac := String.substring (Z.to_nat decpt) (Z.to_nat (n - decpt)) ds in
    (whole ++ "." ++ frac)%string.

(** [str(x)] and [repr(x)] for a [float]. *)
Definition repr (f : spec_float) : string :=
  match f with
  | S754_nan => "nan"
  | S754_infinity false => "inf"
  | S754_infinity true => "-inf"
  | S754_zero false => "0.0"
  | S754_zero true => "-0.0"
  | S754_finite s m e =>
      let '(num, den) :=
        if 0 <=? e then (Zpos m * 2 ^ e, 1) else (Zpos m, 2 ^ (- e)) in
      let '(d, k) := shortest 16 1 m e num den (exponent10 num den) in
      let '(d, k) := strip_zeros 17 d k in
      let sign : string := if s then "-" else "" in
      (sign ++ format_short (PyStr.of_int d) k)%string
  end.

End PyFloat.

(** ** Data model *)

(** A JSON scalar as Python holds it after [json.loads]. *)
Inductive pyval :=
| PNone
| PBool (b : bool)
| PInt (z : Z)
| PFloat (f : spec_float)
| PStr (s : string).

(** The coerced literal of a condition: a number, or the text kept as it
    is (line 139). *)
Inductive value :=
| VNum (x : spec_float)
| VText (s : string).

Record action := Action { decision : string; reason : string }.

(** A rule record; [None] is an absent key. *)
Record rule := Rule {
  r_name : option string;
  r_priority : option Z;
  r_conditions : option (list (list pyval));
  r_action : option action
}.

(** What [apply_rules] returns: [(rule.get("action"), rule.get("name"))],
    or [(None, None)]. *)
Definition outcome : Type := option action * option string.

Definition no_match : outcome := (None, None).

(** ** Objects and references

    The caller's [rules] list, the rule records in it and the [facts]
    mapping are objects of the heap, and the engine receives references to
    them. *)

Definition loc : Type := positive.

Inductive pyobj :=
| ObjList (items : list loc)
| ObjRule (r : rule)
| ObjFacts (d : gmap string spec_float).

Abbreviation heap := (gmap loc pyobj).

(** Computations that read and extend the heap and may raise. *)
Definition st (A : Type) : Type := heap -> result A * heap.

#[global] Instance st_ret : MRet st := fun A a h => (Ok a, h).

#[global] Instance st_bind : MBind st := fun A B k m h =>
  match m h with
  | (Ok a, h') => k a h'
  | (Raise e, h') => (Raise e, h')
  end.

Definition lift {A} (r : result A) : st A := fun h => (r, h).

(** A new object at an address that is not in use. *)
Definition alloc (o : pyobj) : st loc := fun h =>
  let l := fresh (dom h) in (Ok l, <[l := o]> h).

(** Reading through a reference. An object of another kind than the typed
    interface promises makes the operation applied to it fail. *)
Definition load_list (l : loc) : st (list loc) := fun h =>
  match h !! l with
  | Some (ObjList items) => (Ok items, h)
  | _ => (Raise TypeError, h)
  end.

Definition load_rule (l : loc) : st rule := fun h =>
  match h !! l with
  | Some (ObjRule r) => (Ok r, h)
  | _ => (Raise AttributeError, h)
  end.

Definition load_facts (l : loc) : st (gmap string spec_float) := fun h =>
  match h !! l with
  | Some (ObjFacts d) => (Ok d, h)
  | _ => (Raise AttributeError, h)
  end.

(** The rules and the facts a reference stands for. *)
Definition rule_at (h : heap) (l : loc) : option rule :=
  match h !! l with
  | Some (ObjRule r) => Some r
  | _ => None
  end.

Definition rules_at (h : heap) (l : loc) : option (list rule) :=
  match h !! l with
  | Some (ObjList items) => mapM (rule_at h) items
  | _ => None
  end.

Definition facts_at (h : heap) (l : loc) : option (gmap string spec_float) :=
  match h !! l with
  | Some (ObjFacts d) => Some d
  | _ => None
  end.

(** ** Stable sort by key, largest key first

    [sorted(l, key=k, reverse=True)]: Python's sort is stable, also with
    [reverse=True], so elements with equal keys keep their order. *)

Section Sorting.
Context {A : Type} (key : A -> Z).

Fixpoint insert_desc (x : A) (l : list A) : list A :=
  match l with
  | [] => [x]
  | y :: l' => if key x <? key y then y :: insert_desc x l' else x :: l
  end.

Definition sorted_desc (l : list A) : list A := foldr insert_desc [] l.

(** Largest key first. *)
Definition descending (l : list A) : Prop :=
  Sorted (fun x y => key y <= key x) l.

(** The elements with key [k], in the order of the list. *)
Definition with_key (k : Z) (l : list A) : list A :=
  List.filter (fun x => key x =? k) l.
End Sorting.

(** ** The engine *)

(** [str(v)] *)
Definition py_str (v : pyval) : string :=
  match v with
  | PNone => "None"
  | PBool true => "True"
  | PBool false => "False"
  | PInt z => PyStr.of_int z
  | PFloat f => PyFloat.repr f
  | PStr s => s
  end.

(** [v == s] for a string constant [s]. *)
Definition py_eq_str (v : pyval) (s : string) : bool :=
  match v with
  | PStr t => String.eqb t s
  | _ => false
  end.

(** The body of the [try] block, lines 132-139. *)
Definition coerce_literal (raw_value : pyval) : result value :=
  match raw_value with
  | PBool b => x ← PyFloat.of_bool b; mret (VNum x)
  | PInt z => x ← PyFloat.of_int z; mret (VNum x)
  | PFloat x => mret (VNum x)
  | _ =>
      let value_str := PyStr.strip (py_str raw_value) in
      if PyStr.contains "." value_str
         || PyStr.isdigit
              (PyStr.replace "." "" (PyStr.replace "-" "" value_str))
      then
        match PyFloat.of_str value_str with
        | Some x => Ok (VNum x)
        | None => Raise ValueError
        end
      else Ok (VText value_str)
  end.

(** Comparisons of a [float] with the coerced literal. A [float] and a
    [str] are never equal, and ordering them raises [TypeError]. *)
Definition cmp_eq (val : spec_float) (v : value) : result bool :=
  match v with VNum x => Ok (SFeqb val x) | VText _ => Ok false end.

Definition cmp_ne (val : spec_float) (v : value) : result bool :=
  match v with VNum x => Ok (negb (SFeqb val x)) | VText _ => Ok true end.

Definition cmp_gt (val : spec_float) (v : value) : result bool :=
  match v with VNum x => Ok (SFltb x val) | VText _ => Raise TypeError end.

Definition cmp_ge (val : spec_float) (v : value) : result bool :=
  match v with VNum x => Ok (SFleb x val) | VText _ => Raise TypeError end.

Definition cmp_lt (val : spec_float) (v : value) : result bool :=
  match v with VNum x => Ok (SFltb val x) | VText _ => Raise TypeError end.

Definition cmp_le (val : spec_float) (v : value) : result bool :=
  match v with VNum x => Ok (SFleb val x) | VText _ => Raise TypeError end.

(** The operators that order their operands, and the six operators. *)
Definition is_ordering (op : pyval) : bool :=
  py_eq_str op ">" || py_eq_str op ">=" || py_eq_str op "<"
  || py_eq_str op "<=".

Definition is_operator (op : pyval) : bool :=
  py_eq_str op "==" || py_eq_str op "!=" || is_ordering op.

(** Lines 144-150. *)
Definition compare (op : pyval) (val : spec_float) (v : value)
  : result bool :=
  if py_eq_str op "==" then cmp_eq val v
  else if py_eq_str op "!=" then cmp_ne val v
  else if py_eq_str op ">" then cmp_gt val v
  else if py_eq_str op ">=" then cmp_ge val v
  else if py_eq_str op "<" then cmp_lt val v
  else if py_eq_str op "<=" then cmp_le val v
  else Ok false.

(** Lines 118-150. *)
Definition evaluate_condition
    (condition : list pyval) (facts : gmap string spec_float)
  : result bool :=
  match condition with
  | [field; op; raw_value] =>
      match facts !! py_str field with
      | None => Ok false
      | Some val =>
          match coerce_literal raw_value with
          | Raise ValueError | Raise TypeError => Ok false
          | Raise e => Raise e
          | Ok v => compare op val v
          end
      end
  | _ => Ok false
  end.

(** [all(evaluate_condition(cond, facts) for cond in conditions)]: stops
    at the first condition that is false. *)
Fixpoint all_conditions
    (conditions : list (list pyval)) (facts : gmap string spec_float)
  : result bool :=
  match conditions with
  | [] => Ok true
  | cond :: rest =>
      b ← evaluate_condition cond facts;
      if b : bool then all_conditions rest facts else Ok false
  end.

(** [lambda x: x.get("priority", 0)] *)
Definition priority_key (r : rule) : Z := default 0 (r_priority r).

(** [rule.get("conditions", [])] *)
Definition conditions_of (r : rule) : list (list pyval) :=
  default [] (r_conditions r).

(** Line 161 for one rule. *)
Definition rule_matches (r : rule) (facts : gmap string spec_float)
  : result bool :=
  all_conditions (conditions_of r) facts.

(** The loop of lines 159-163. *)
Fixpoint first_match
    (sorted_rules : list rule) (facts : gmap string spec_float)
  : result outcome :=
  match sorted_rules with
  | [] => Ok no_match
  | r :: rest =>
      b ← rule_matches r facts;
      if b : bool then Ok (r_action r, r_name r) else first_match rest facts
  end.

(** Line 158. *)
Definition sorted_rules (rules : list rule) : list rule :=
  sorted_desc priority_key rules.

(** Lines 152-163. *)
Definition apply_rules
    (rules : list rule) (facts : gmap string spec_float)
  : result outcome :=
  first_match (sorted_rules rules) facts.

(** *** The engine on references

    The same code with [rules] and [facts] passed by reference: [sorted]
    builds a new list object, every other step only reads. *)

Definition evaluate_condition_st (condition : list pyval) (facts : loc)
  : st bool :=
  match condition with
  | [field; op; raw_value] =>
      d ← load_facts facts;
      lift (evaluate_condition condition d)
  | _ => mret false
  end.

Fixpoint all_conditions_st (conditions : list (list pyval)) (facts : loc)
  : st bool :=
  match conditions with
  | [] => mret true
  | cond :: rest =>
      b ← evaluate_condition_st cond facts;
      if b : bool then all_conditions_st rest facts else mret false
  end.

(** The sort key of every item. *)
Fixpoint keys_st (items : list loc) : st (list (Z * loc)) :=
  match items with
  | [] => mret []
  | l :: rest =>
      r ← load_rule l;
      ks ← keys_st rest;
      mret ((priority_key r, l) :: ks)
  end.

(** [sorted(rules, key=..., reverse=True)]: the result is a new list. *)
Definition sorted_st (rules : loc) : st loc :=
  items ← load_list rules;
  keyed ← keys_st items;
  alloc (ObjList (map snd (sorted_desc fst keyed))).

Fixpoint first_match_st (items : list loc) (facts : loc) : st outcome :=
  match items with
  | [] => mret no_match
  | l :: rest =>
      r ← load_rule l;
      b ← all_conditions_st (conditions_of r) facts;
      if b : bool then mret (r_action r, r_name r)
      else first_match_st rest facts
  end.

Definition apply_rules_st (rules facts : loc) : st outcome :=
  sorted_rules ← sorted_st rules;
  items ← load_list sorted_rules;
  first_match_st items facts.

(** ** The default ruleset and sample applicants *)

Definition cond (field op : string) (literal : pyval) : list pyval :=
  [PStr field; PStr op; literal].

(** A JSON number written with a decimal point. *)
Definition num (s : string) : pyval := PFloat (PyFloat.lit s).

(** Lines 11-76. *)
Definition rule_top_merit : rule :=
  Rule (Some "Top merit candidate") (Some 100)
    (Some [cond "cgpa" ">=" (num "3.7");
           cond "co_curricular_score" ">=" (PInt 80);
           cond "family_income" "<=" (PInt 8000);
           cond "disciplinary_actions" "==" (PInt 0)])
    (Some (Action "AWARD_FULL"
       "Excellent academic & co-curricular performance, with acceptable need")).

Definition rule_partial : rule :=
  Rule (Some "Good candidate - partial scholarship") (Some 80)
    (Some [cond "cgpa" ">=" (num "3.3");
           cond "co_curricular_score" ">=" (PInt 60);
           cond "family_income" "<=" (PInt 12000);
           cond "disciplinary_actions" "<=" (PInt 1)])
    (Some (Action "AWARD_PARTIAL"
       "Good academic & involvement record with moderate need")).

Definition rule_need_review : rule :=
  Rule (Some "Need-based review") (Some 70)
    (Some [cond "cgpa" ">=" (num "2.5");
           cond "family_income" "<=" (PInt 4000)])
    (Some (Action "REVIEW" "High need but borderline academic score")).

Definition rule_low_cgpa : rule :=
  Rule (Some "Low CGPA - not eligible") (Some 95)
    (Some [cond "cgpa" "<" (num "2.5")])
    (Some (Action "REJECT" "CGPA below minimum scholarship requirement")).

Definition rule_disciplinary : rule :=
  Rule (Some "Serious disciplinary record") (Some 90)
    (Some [cond "disciplinary_actions" ">=" (PInt 2)])
    (Some (Action "REJECT" "Too many disciplinary records")).

Definition DEFAULT_RULES : list rule :=
  [rule_top_merit; rule_partial; rule_need_review; rule_low_cgpa;
   rule_disciplinary].

(** A rule that an author may add as a catch-all: no conditions. *)
Definition rule_catch_all : rule :=
  Rule (Some "Catch-all") (Some 10) (Some [])
    (Some (Action "REVIEW" "No other rule applies")).

(** Rule records with absent keys. *)
Definition rule_no_priority : rule :=
  Rule (Some "Unranked") None (Some [cond "cgpa" ">=" (PInt 3)])
    (Some (Action "REVIEW" "No priority given")).

Definition rule_no_conditions : rule :=
  Rule (Some "Unconditional") (Some 60) None
    (Some (Action "REVIEW" "No conditions given")).

(** A rule whose literal is text that is not a number. *)
Definition rule_text_literal : rule :=
  Rule (Some "High CGPA") (Some 100) (Some [cond "cgpa" ">" (PStr "high")])
    (Some (Action "AWARD_FULL" "CGPA is high")).

(** The record with the key [priority], or [conditions], set. *)
Definition set_priority (p : Z) (r : rule) : rule :=
  Rule (r_name r) (Some p) (r_conditions r) (r_action r).

Definition set_conditions (c : list (list pyval)) (r : rule) : rule :=
  Rule (r_name r) (r_priority r) (Some c) (r_action r).

(** The engine sees a rule record only through [get] with its defaults. *)
Definition same_view (a b : rule) : Prop :=
  priority_key a = priority_key b /\ conditions_of a = conditions_of b
  /\ r_action a = r_action b /\ r_name a = r_name b.

(** The facts dictionary of lines 108-115, from the decimal text of the six
    entries of the form. *)
Definition applicant
    (cgpa family_income co_curricular community_service semester
       disciplinary_actions : string)
  : gmap string spec_float :=
  <["cgpa" := PyFloat.lit cgpa]>
  (<["family_income" := PyFloat.lit family_income]>
  (<["co_curricular_score" := PyFloat.lit co_curricular]>
  (<["community_service_hours" := PyFloat.lit community_service]>
  (<["current_semester" := PyFloat.lit semester]>
  (<["disciplinary_actions" := PyFloat.lit disciplinary_actions]> ∅))))).

(** A facts mapping with the single entry [cgpa]. *)
Definition cgpa_only (cgpa : string) : gmap string spec_float :=
  {["cgpa" := PyFloat.lit cgpa]}.

(** The heap of a caller that holds the default ruleset at address 6, its
    five rule records at addresses 1 to 5, and the facts at address 7. *)
Definition caller_heap (facts : gmap string spec_float) : heap :=
  <[1%positive := ObjRule rule_top_merit]>
  (<[2%positive := ObjRule rule_partial]>
  (<[3%positive := ObjRule rule_need_review]>
  (<[4%positive := ObjRule rule_low_cgpa]>
  (<[5%positive := ObjRule rule_disciplinary]>
  (<[6%positive := ObjList [1; 2; 3; 4; 5]%positive]>
  (<[7%positive := ObjFacts facts]> ∅)))))).

(** * Properties *)

(** ** The built-ins on the values the default rules use *)

Example lit_3_8 : PyFloat.lit "3.8" = S754_finite false 8556839292003942 (-51).
Proof. vm_compute. reflexivity. Qed.

Example lit_3_7 : PyFloat.lit "3.7" = S754_finite false 8331659310635418 (-51).
Proof. vm_compute. reflexivity. Qed.

Example float_of_80 : PyFloat.of_int 80 = Ok (PyFloat.lit "80.0").
Proof. vm_compute. reflexivity. Qed.

Example float_of_big_int : PyFloat.of_int (10 ^ 309) = Raise OverflowError.
Proof. vm_compute. reflexivity. Qed.

Example repr_3_7 : PyFloat.repr (PyFloat.lit "3.70") = "3.7".
Proof. vm_compute. reflexivity. Qed.

Example strip_isdigit : PyStr.isdigit (PyStr.strip "  12000 ") = true.
Proof. vm_compute. reflexivity. Qed.

(** ** End-to-end scenarios on the default ruleset *)

Example scenario_top_merit :
  apply_rules DEFAULT_RULES (applicant "3.8" "5000" "85" "50" "5" "0")
  = Ok (r_action rule_top_merit, Some "Top merit candidate").
Proof. vm_compute. reflexivity. Qed.

Example scenario_low_cgpa :
  apply_rules DEFAULT_RULES (applicant "2.0" "3000" "85" "50" "5" "0")
  = Ok (Some (Action "REJECT" "CGPA below minimum scholarship requirement"),
        Some "Low CGPA - not eligible").
Proof. vm_compute. reflexivity. Qed.

Example scenario_disciplinary :
  apply_rules DEFAULT_RULES (applicant "3.8" "5000" "85" "50" "5" "3")
  = Ok (Some (Action "REJECT" "Too many disciplinary records"),
        Some "Serious disciplinary record").
Proof. vm_compute. reflexivity. Qed.

Example scenario_no_match :
  apply_rules DEFAULT_RULES (applicant "2.7" "20000" "70" "50" "5" "0")
  = Ok no_match.
Proof. vm_compute. reflexivity. Qed.

(** ** The stable sort *)

Section SortingFacts.
Context {A : Type} (key : A -> Z).

Lemma insert_desc_perm (x : A) (l : list A) :
  Permutation (insert_desc key x l) (x :: l).
Proof.
  induction l as [|y l IH]; simpl; [reflexivity|].
  destruct (key x <? key y); [|reflexivity].
  rewrite IH. apply perm_swap.
Qed.

Lemma sorted_desc_perm (l : list A) : Permutation (sorted_desc key l) l.
Proof.
  induction l as [|x l IH]; simpl; [reflexivity|].
  rewrite insert_desc_perm. now constructor.
Qed.

Lemma insert_desc_hd (x y : A) (l : list A) :
  key x < key y ->
  HdRel (fun a b => key b <= key a) y l ->
  HdRel (fun a b => key b <= key a) y (insert_desc key x l).
Proof.
  intros Hxy Hl. destruct l as [|z l]; simpl.
  - constructor. lia.
  - destruct (key x <? key z).
    + constructor. now inversion Hl.
    + constructor. lia.
Qed.

Lemma insert_desc_descending (x : A) (l : list A) :
  descending key l -> descending key (insert_desc key x l).
Proof.
  unfold descending. induction l as [|y l IH]; simpl; intros Hs.
  - repeat constructor.
  - inversion Hs as [|? ? Hl Hhd]; subst.
    destruct (key x <? key y) eqn:E.
    + apply Z.ltb_lt in E. constructor; [now apply IH|].
      now apply insert_desc_hd.
    + apply Z.ltb_ge in E. constructor; [assumption|]. now constructor.
Qed.

Lemma sorted_desc_descending (l : list A) : descending key (sorted_desc key l).
Proof.
  induction l as [|x l IH]; simpl; [constructor|].
  now apply insert_desc_descending.
Qed.

(** Insertion puts the new element before the elements of the same key. *)
Lemma with_key_insert_desc (k : Z) (x : A) (l : list A) :
  with_key key k (insert_desc key x l) = with_key key k (x :: l).
Proof.
  induction l as [|y l IH]; [reflexivity|].
  cbn [insert_desc]. destruct (key x <? key y) eqn:E; [|reflexivity].
  apply Z.ltb_lt in E. unfold with_key in *. cbn [List.filter] in *.
  rewrite IH.
  destruct (key x =? k) eqn:Ex, (key y =? k) eqn:Ey; try reflexivity.
  apply Z.eqb_eq in Ex, Ey. lia.
Qed.

(** Stability: the rules of one priority keep their relative order. *)
Lemma with_key_sorted_desc (k : Z) (l : list A) :
  with_key key k (sorted_desc key l) = with_key key k l.
Proof.
  induction l as [|x l IH]; [reflexivity|].
  cbn [sorted_desc foldr]. rewrite with_key_insert_desc.
  unfold with_key in *. cbn [List.filter]. fold (sorted_desc key l).
  now rewrite IH.
Qed.

Lemma descending_bound (x : A) (l : list A) :
  descending key (x :: l) -> Forall (fun y => key y <= key x) l.
Proof.
  intros Hs. apply Sorted_StronglySorted in Hs.
  - now inversion Hs.
  - intros a b c Hab Hbc. lia.
Qed.

Lemma with_key_head (x : A) (l : list A) :
  with_key key (key x) (x :: l) = x :: with_key key (key x) l.
Proof. unfold with_key. cbn [List.filter]. now rewrite Z.eqb_refl. Qed.

Lemma with_key_In (k : Z) (x : A) (l : list A) :
  In x (with_key key k l) -> In x l /\ key x = k.
Proof.
  unfold with_key. rewrite filter_In. intros [Hin Hk].
  split; [assumption|]. now apply Z.eqb_eq.
Qed.

(** A list in descending order with the same elements of every key, in
    the same order, is the same list: the result of a stable sort is
    determined by its specification. *)
Lemma stable_sort_unique (l1 l2 : list A) :
  descending key l1 -> descending key l2 ->
  (forall k, with_key key k l1 = with_key key k l2) ->
  l1 = l2.
Proof.
  revert l2. induction l1 as [|x l1 IH]; intros [|y l2] Hs1 Hs2 Hk.
  - reflexivity.
  - specialize (Hk (key y)). rewrite with_key_head in Hk. discriminate.
  - specialize (Hk (key x)). rewrite with_key_head in Hk. discriminate.
  - assert (Hxy : key x = key y).
    { pose proof (descending_bound _ _ Hs1) as B1.
      pose proof (descending_bound _ _ Hs2) as B2.
      rewrite List.Forall_forall in B1, B2.
      assert (Hy : In y (with_key key (key y) (x :: l1))).
      { rewrite Hk, with_key_head. now left. }
      assert (Hx : In x (with_key key (key x) (y :: l2))).
      { rewrite <- Hk, with_key_head. now left. }
      apply with_key_In in Hy as [[->|Hy] _]; [reflexivity|].
      apply with_key_In in Hx as [[->|Hx] _]; [reflexivity|].
      apply B1 in Hy. apply B2 in Hx. lia. }
    pose proof (Hk (key x)) as Hh.
    rewrite with_key_head in Hh. rewrite Hxy, with_key_head in Hh.
    injection Hh as -> Ht.
    f_equal. apply IH.
    + now inversion Hs1.
    + now inversion Hs2.
    + intros k. specialize (Hk k). unfold with_key in *.
      cbn [List.filter] in Hk. destruct (key y =? k); [|assumption].
      now injection Hk.
Qed.

(** [sorted_desc] is that list. *)
Lemma sorted_desc_unique (l s : list A) :
  descending key s ->
  (forall k, with_key key k s = with_key key k l) ->
  s = sorted_desc key l.
Proof.
  intros Hs Hk. apply stable_sort_unique; [assumption| |].
  - apply sorted_desc_descending.
  - intros k. now rewrite Hk, with_key_sorted_desc.
Qed.

End SortingFacts.

(** Sorting lists that agree on the keys, position by position. *)
Lemma sorted_desc_Forall2 {A B : Type} (keyA : A -> Z) (keyB : B -> Z)
    (R : A -> B -> Prop) (l : list A) (l' : list B) :
  (forall x y, R x y -> keyA x = keyB y) ->
  Forall2 R l l' ->
  Forall2 R (sorted_desc keyA l) (sorted_desc keyB l').
Proof.
  intros Hkey H. induction H as [|x y l l' Hxy Hl IH]; simpl; [constructor|].
  fold (sorted_desc keyA l). fold (sorted_desc keyB l').
  induction IH as [|a b s s' Hab Hs IHs]; simpl.
  - repeat constructor. assumption.
  - rewrite <- (Hkey _ _ Hxy), <- (Hkey _ _ Hab).
    destruct (keyA x <? keyA a).
    + constructor; assumption.
    + repeat constructor; assumption.
Qed.

(** ** The selection loop *)

Lemma first_match_skip (before rest : list rule) facts :
  Forall (fun r => rule_matches r facts = Ok false) before ->
  first_match (before ++ rest) facts = first_match rest facts.
Proof.
  induction 1 as [|r before Hr _ IH]; [reflexivity|].
  cbn [app first_match]. rewrite Hr. exact IH.
Qed.

Lemma first_match_hit (r : rule) (rest : list rule) facts :
  rule_matches r facts = Ok true ->
  first_match (r :: rest) facts = Ok (r_action r, r_name r).
Proof. intros Hr. cbn [first_match]. now rewrite Hr. Qed.

Lemma first_match_reach (before after : list rule) (r : rule) facts :
  Forall (fun r' => rule_matches r' facts = Ok false) before ->
  rule_matches r facts = Ok true ->
  first_match (before ++ r :: after) facts = Ok (r_action r, r_name r).
Proof.
  intros Hb Hr. rewrite first_match_skip by assumption.
  now apply first_match_hit.
Qed.

Lemma first_match_none (l : list rule) facts :
  Forall (fun r => rule_matches r facts = Ok false) l ->
  first_match l facts = Ok no_match.
Proof.
  intros H. rewrite <- (app_nil_r l). now rewrite first_match_skip.
Qed.

Lemma first_match_same_view (l l' : list rule) facts :
  Forall2 same_view l l' -> first_match l facts = first_match l' facts.
Proof.
  induction 1 as [|a b l l' (_ & Hc & Ha & Hn) _ IH]; [reflexivity|].
  cbn [first_match]. unfold rule_matches. now rewrite Hc, Ha, Hn, IH.
Qed.

Lemma apply_rules_same_view (l l' : list rule) facts :
  Forall2 same_view l l' -> apply_rules l facts = apply_rules l' facts.
Proof.
  intros H. unfold apply_rules, sorted_rules.
  apply first_match_same_view.
  apply sorted_desc_Forall2 with (R := same_view); [|assumption].
  now intros x y [Hp _].
Qed.

Lemma same_view_refl (l : list rule) : Forall2 same_view l l.
Proof. induction l; constructor; [repeat split|assumption]. Qed.

(** ** Conditions *)

Lemma all_conditions_nil facts : all_conditions [] facts = Ok true.
Proof. reflexivity. Qed.

(** A literal that is a number, or text that reads as one, never makes
    the evaluation raise. *)
Lemma compare_number (op : pyval) (val x : spec_float) :
  exists b, compare op val (VNum x) = Ok b.
Proof.
  unfold compare.
  repeat match goal with |- context [if ?c then _ else _] => destruct c end;
    eexists; reflexivity.
Qed.

Lemma evaluate_condition_number (field op raw_value : pyval) facts x :
  coerce_literal raw_value = Ok (VNum x) ->
  exists b, evaluate_condition [field; op; raw_value] facts = Ok b.
Proof.
  intros Hc. cbn [evaluate_condition]. rewrite Hc.
  destruct (facts !! py_str field); [|now exists false].
  apply compare_number.
Qed.

(** The coercion of the literal raises [ValueError] on text that looks
    like a number and is not one, and [OverflowError] on an integer beyond
    the range of a float; nothing else. *)
Lemma of_int_raise (z : Z) (e : exn) :
  PyFloat.of_int z = Raise e -> e = OverflowError.
Proof.
  unfold PyFloat.of_int.
  destruct (binary_normalize _ _ _ _ _); intros H; now inversion H.
Qed.

Lemma coerce_literal_raise (raw_value : pyval) (e : exn) :
  coerce_literal raw_value = Raise e ->
  e = ValueError \/ (e = OverflowError /\ exists z, raw_value = PInt z).
Proof.
  destruct raw_value as [|b|z|x|s]; cbn [coerce_literal].
  - destruct (_ || _); [|discriminate].
    destruct (PyFloat.of_str _); [discriminate|]. intros H.
    inversion H. now left.
  - destruct b; vm_compute; discriminate.
  - unfold mbind, result_bind.
    destruct (PyFloat.of_int z) eqn:E; [discriminate|].
    intros H. inversion H; subst. right. split; [|now exists z].
    now apply of_int_raise in E.
  - discriminate.
  - destruct (_ || _); [|discriminate].
    destruct (PyFloat.of_str _); [discriminate|]. intros H.
    inversion H. now left.
Qed.

(** The comparison raises on one case only: an ordering operator applied
    to a literal kept as text. *)
Lemma compare_raise (op : pyval) (val : spec_float) (v : value) (e : exn) :
  compare op val v = Raise e ->
  e = TypeError /\ is_ordering op = true /\ exists t, v = VText t.
Proof.
  unfold compare, is_ordering.
  destruct (py_eq_str op "=="); [destruct v; discriminate|].
  destruct (py_eq_str op "!="); [destruct v; discriminate|].
  destruct (py_eq_str op ">"), (py_eq_str op ">="), (py_eq_str op "<"),
    (py_eq_str op "<="); cbn; destruct v as [x|t]; try discriminate;
    intros H; inversion H; (split; [reflexivity|]);
    (split; [reflexivity|]); now exists t.
Qed.

(** All the ways in which [evaluate_condition] raises. *)
Lemma evaluate_condition_raise_cases
    (condition : list pyval) (facts : gmap string spec_float) (e : exn) :
  evaluate_condition condition facts = Raise e ->
  exists field op raw_value val,
    condition = [field; op; raw_value]
    /\ facts !! py_str field = Some val
    /\ ((e = TypeError /\ is_ordering op = true
         /\ exists t, coerce_literal raw_value = Ok (VText t))
        \/ (e = OverflowError
            /\ exists z, raw_value = PInt z
                         /\ PyFloat.of_int z = Raise OverflowError)).
Proof.
  destruct condition as [|field [|op [|raw_value [|d l]]]]; try discriminate.
  cbn [evaluate_condition].
  destruct (facts !! py_str field) as [val|] eqn:Ef; [|discriminate].
  intros H. exists field, op, raw_value, val.
  split; [reflexivity|]. split; [exact Ef|].
  destruct (coerce_literal raw_value) as [v|e'] eqn:E.
  - left. apply compare_raise in H as (-> & Ho & t & ->).
    split; [reflexivity|]. split; [assumption|]. now exists t.
  - right. pose proof (coerce_literal_raise _ _ E) as [->|[-> [z ->]]];
      [discriminate|].
    injection H as <-. split; [reflexivity|]. exists z.
    split; [reflexivity|].
    cbn [coerce_literal] in E. unfold mbind, result_bind in E.
    destruct (PyFloat.of_int z) as [x|e'] eqn:Ez; [discriminate|].
    now rewrite (of_int_raise _ _ Ez).
Qed.

(** Text that looks like a number and is not one makes the condition
    false. *)
Lemma unparseable_literal_is_false (field op raw_value : pyval) facts :
  coerce_literal raw_value = Raise ValueError ->
  evaluate_condition [field; op; raw_value] facts = Ok false.
Proof.
  intros H. cbn [evaluate_condition]. rewrite H.
  now destruct (facts !! py_str field).
Qed.

(** An operator that is not one of the six makes the condition false,
    once the literal is coerced. *)
Lemma unknown_operator_is_false (field op raw_value : pyval) facts v :
  is_operator op = false ->
  coerce_literal raw_value = Ok v ->
  evaluate_condition [field; op; raw_value] facts = Ok false.
Proof.
  unfold is_operator, is_ordering. intros Ho Hc.
  cbn [evaluate_condition]. rewrite Hc.
  destruct (facts !! py_str field); [|reflexivity].
  unfold compare.
  destruct (py_eq_str op "=="), (py_eq_str op "!="), (py_eq_str op ">"),
    (py_eq_str op ">="), (py_eq_str op "<"), (py_eq_str op "<=");
    try discriminate; reflexivity.
Qed.

(** ** Claims about [evaluate_condition] *)

(** C3. Literal coercion. With [facts = {"cgpa": 3.8}], the condition
    [["cgpa", ">=", "3.7"]] evaluates to true: the text ["3.7"] is
    converted to a number before the comparison. The condition
    [["cgpa", ">=", "abc"]] does not evaluate to false: ["abc"] is kept as
    text (line 139) and the comparison of line 147, which is outside the
    [try] block, raises [TypeError]. *)
Theorem literal_coercion_examples :
  evaluate_condition [PStr "cgpa"; PStr ">="; PStr "3.7"] (cgpa_only "3.8")
  = Ok true
  /\ evaluate_condition [PStr "cgpa"; PStr ">="; PStr "abc"] (cgpa_only "3.8")
     = Raise TypeError.
Proof. split; vm_compute; reflexivity. Qed.

(** C2. The engine does raise on well-formed JSON data. A literal that is
    text and not a number, under an ordering operator, makes
    [evaluate_condition] raise [TypeError], and [apply_rules] with it; an
    integer literal beyond the range of a float makes the conversion of
    line 133 raise [OverflowError], which the [except] clause does not
    catch. Under [!=] the same text literal makes the condition true. *)
Theorem engine_raises_on_json_data :
  evaluate_condition (cond "cgpa" "<" (PStr "high")) (cgpa_only "3.8")
  = Raise TypeError
  /\ apply_rules [rule_text_literal; rule_catch_all] (cgpa_only "3.8")
     = Raise TypeError
  /\ evaluate_condition (cond "cgpa" "==" (PInt (10 ^ 309))) (cgpa_only "3.8")
     = Raise OverflowError
  /\ evaluate_condition (cond "cgpa" "!=" (PStr "high")) (cgpa_only "3.8")
     = Ok true.
Proof. repeat split; vm_compute; reflexivity. Qed.

(** C5. A condition whose field name is absent from the facts mapping
    evaluates to false, whatever its operator and literal are. *)
Theorem missing_field_is_false
    (field op raw_value : pyval) (facts : gmap string spec_float) :
  facts !! py_str field = None ->
  evaluate_condition [field; op; raw_value] facts = Ok false.
Proof. intros H. cbn [evaluate_condition]. now rewrite H. Qed.

(** C6. A condition that does not have exactly three elements evaluates to
    false; nothing is raised. *)
Theorem wrong_arity_is_false
    (condition : list pyval) (facts : gmap string spec_float) :
  length condition <> 3%nat ->
  evaluate_condition condition facts = Ok false.
Proof.
  intros H. destruct condition as [|a [|b [|c [|d l]]]]; try reflexivity.
  now contradict H.
Qed.

(** ** Claims about [apply_rules] *)

(** The order of selection, for rules whose checks evaluate. The sorted
    list is a permutation of the rules, in descending priority, in which
    the rules of one priority keep their order; the first rule of it whose
    conditions all hold, after rules whose checks evaluate to false, gives
    the result. For two rules of priorities 100 and 50 that both match,
    that is the rule of priority 100, in whichever order they are listed;
    for two rules of the same priority it is the first listed when both
    match, and the second when the check of the first evaluates to
    false. *)
Theorem apply_rules_first_match_by_priority
    (rules : list rule) (facts : gmap string spec_float) :
  (Permutation (sorted_rules rules) rules
   /\ descending priority_key (sorted_rules rules)
   /\ forall p, with_key priority_key p (sorted_rules rules)
                = with_key priority_key p rules)
  /\ (forall before r after,
        sorted_rules rules = before ++ r :: after ->
        Forall (fun r' => rule_matches r' facts = Ok false) before ->
        rule_matches r facts = Ok true ->
        apply_rules rules facts = Ok (r_action r, r_name r))
  /\ (forall hi lo,
        priority_key hi = 100 -> priority_key lo = 50 ->
        rule_matches hi facts = Ok true -> rule_matches lo facts = Ok true ->
        apply_rules [hi; lo] facts = Ok (r_action hi, r_name hi)
        /\ apply_rules [lo; hi] facts = Ok (r_action hi, r_name hi))
  /\ (forall r1 r2,
        priority_key r1 = priority_key r2 ->
        rule_matches r2 facts = Ok true ->
        (rule_matches r1 facts = Ok true ->
         apply_rules [r1; r2] facts = Ok (r_action r1, r_name r1))
        /\ (rule_matches r1 facts = Ok false ->
            apply_rules [r1; r2] facts = Ok (r_action r2, r_name r2))).
Proof.
  repeat apply conj.
  - apply sorted_desc_perm.
  - apply sorted_desc_descending.
  - intros p. apply with_key_sorted_desc.
  - intros before r after Hs Hb Hr. unfold apply_rules. rewrite Hs.
    now apply first_match_reach.
  - intros hi lo Hhi Hlo Mhi Mlo.
    unfold apply_rules, sorted_rules, sorted_desc.
    cbn [fold_right insert_desc]. rewrite Hhi, Hlo.
    split; now apply first_match_hit.
  - intros r1 r2 Hp M2.
    unfold apply_rules, sorted_rules, sorted_desc.
    cbn [fold_right insert_desc]. rewrite Hp, Z.ltb_irrefl.
    split; intros M1.
    + now apply first_match_hit.
    + apply (first_match_reach [r1] []); [|assumption].
      now repeat constructor.
Qed.

(** C4. A rule whose list of conditions is empty matches any facts: when
    [apply_rules] reaches it, every rule before it in priority order not
    matching, the result is the action and the name of that rule. *)
Theorem empty_conditions_rule_matches
    (rules before after : list rule) (r : rule)
    (facts : gmap string spec_float) :
  r_conditions r = Some [] ->
  sorted_rules rules = before ++ r :: after ->
  Forall (fun r' => rule_matches r' facts = Ok false) before ->
  rule_matches r facts = Ok true
  /\ apply_rules rules facts = Ok (r_action r, r_name r).
Proof.
  intros Hc Hs Hb.
  assert (Hr : rule_matches r facts = Ok true).
  { unfold rule_matches, conditions_of. now rewrite Hc. }
  split; [assumption|].
  unfold apply_rules. rewrite Hs. now apply first_match_reach.
Qed.

(** When the check of every rule evaluates to false, [apply_rules]
    returns the no-match signal [(None, None)]. *)
Theorem no_match_signal (rules : list rule) (facts : gmap string spec_float) :
  (forall r, In r rules -> rule_matches r facts = Ok false) ->
  apply_rules rules facts = Ok (None, None).
Proof.
  intros H. unfold apply_rules. apply first_match_none.
  apply List.Forall_forall. intros r Hr. apply H.
  apply (Permutation_in r (sorted_desc_perm priority_key rules)). exact Hr.
Qed.

(** C1. [apply_rules] does not always return the first rule that matches
    in priority order. Of two rules of the same priority, the later listed
    one being the only match, the later one is not returned when the
    earlier one has a literal that is text under an ordering operator:
    the check of the earlier rule raises [TypeError] at the comparison of
    line 146, and [apply_rules] raises with it. The same happens when the
    only match has a lower priority than the rule that raises. *)
Theorem only_match_is_not_returned :
  priority_key rule_text_literal
  = priority_key (set_priority 100 rule_catch_all)
  /\ rule_matches rule_text_literal (cgpa_only "3.8") = Raise TypeError
  /\ rule_matches (set_priority 100 rule_catch_all) (cgpa_only "3.8")
     = Ok true
  /\ apply_rules [rule_text_literal; set_priority 100 rule_catch_all]
       (cgpa_only "3.8") = Raise TypeError
  /\ rule_matches rule_catch_all (cgpa_only "3.8") = Ok true
  /\ apply_rules [rule_catch_all; rule_text_literal] (cgpa_only "3.8")
     = Raise TypeError.
Proof. repeat split; vm_compute; reflexivity. Qed.

(** C7. When no rule matches, [apply_rules] does not always return the
    no-match signal: with a single rule whose literal is text under an
    ordering operator, the conditions of no rule all hold, and
    [apply_rules] raises [TypeError] instead of returning
    [(None, None)]. *)
Theorem no_match_raises :
  rule_matches rule_text_literal (cgpa_only "3.8") <> Ok true
  /\ apply_rules [rule_text_literal] (cgpa_only "3.8") = Raise TypeError
  /\ apply_rules [rule_text_literal] (cgpa_only "3.8") <> Ok (None, None).
Proof. repeat split; vm_compute; discriminate || reflexivity. Qed.

(** C10. Defaults for absent keys. A rule record without the key
    [priority] has sort key 0: it takes the place in the sorted list that
    the same record with priority 0 takes, and the result of [apply_rules]
    is the same. A rule record without the key [conditions] matches any
    facts, and the result of [apply_rules] is the same as with an empty
    list of conditions. *)
Theorem absent_keys_take_defaults
    (before after : list rule) (r : rule) (facts : gmap string spec_float) :
  (r_priority r = None ->
   priority_key r = 0
   /\ Forall2 (fun a b => a = b \/ (a = r /\ b = set_priority 0 r))
        (sorted_rules (before ++ r :: after))
        (sorted_rules (before ++ set_priority 0 r :: after))
   /\ apply_rules (before ++ r :: after) facts
      = apply_rules (before ++ set_priority 0 r :: after) facts)
  /\ (r_conditions r = None ->
      rule_matches r facts = Ok true
      /\ apply_rules (before ++ r :: after) facts
         = apply_rules (before ++ set_conditions [] r :: after) facts).
Proof.
  split.
  - intros Hp.
    assert (Hk : priority_key r = 0) by (unfold priority_key; now rewrite Hp).
    repeat apply conj.
    + exact Hk.
    + apply sorted_desc_Forall2.
      * intros x y [->|[-> ->]]; [reflexivity|]. now rewrite Hk.
      * apply Forall2_app; [|constructor].
        -- clear. induction before; constructor; auto.
        -- now right.
        -- clear. induction after; constructor; auto.
    + apply apply_rules_same_view.
      apply Forall2_app; [apply same_view_refl|].
      constructor; [|apply same_view_refl].
      repeat split. now rewrite Hk.
  - intros Hc. split.
    + unfold rule_matches, conditions_of. now rewrite Hc.
    + apply apply_rules_same_view.
      apply Forall2_app; [apply same_view_refl|].
      constructor; [|apply same_view_refl].
      repeat split. unfold conditions_of. cbn. now rewrite Hc.
Qed.

(** ** The engine on references *)

Ltac unfold_st :=
  unfold mbind, st_bind, mret, st_ret, lift, load_list, load_rule,
    load_facts, alloc in *.

Lemma evaluate_condition_st_frame condition facts (h : heap) :
  snd (evaluate_condition_st condition facts h) = h.
Proof.
  destruct condition as [|a [|b [|c [|d l]]]]; try reflexivity.
  cbn [evaluate_condition_st]. unfold_st.
  destruct (h !! facts) as [[]|]; reflexivity.
Qed.

Lemma all_conditions_st_frame conditions facts (h : heap) :
  snd (all_conditions_st conditions facts h) = h.
Proof.
  induction conditions as [|c cs IH]; [reflexivity|].
  cbn [all_conditions_st]. unfold mbind, st_bind.
  pose proof (evaluate_condition_st_frame c facts h) as Hc.
  destruct (evaluate_condition_st c facts h) as [[[]|e] h']; cbn in Hc; subst;
    try reflexivity.
  exact IH.
Qed.

Lemma keys_st_frame items (h : heap) : snd (keys_st items h) = h.
Proof.
  induction items as [|l items IH]; [reflexivity|].
  cbn [keys_st]. unfold_st.
  destruct (h !! l) as [[]|]; try reflexivity.
  destruct (keys_st items h) as [[ks|e] h']; cbn in IH; subst; reflexivity.
Qed.

Lemma first_match_st_frame items facts (h : heap) :
  snd (first_match_st items facts h) = h.
Proof.
  induction items as [|l items IH]; [reflexivity|].
  cbn [first_match_st]. unfold_st.
  destruct (h !! l) as [[]|]; try reflexivity.
  pose proof (all_conditions_st_frame (conditions_of r) facts h) as Hc.
  destruct (all_conditions_st (conditions_of r) facts h) as [[[]|e] h'];
    cbn in Hc; subst; try reflexivity.
  exact IH.
Qed.

(** [sorted] leaves the heap as it is, or adds one list at an unused
    address. *)
Lemma sorted_st_heap rules (h : heap) :
  snd (sorted_st rules h) = h
  \/ exists items,
       sorted_st rules h
       = (Ok (fresh (dom h)), <[fresh (dom h) := ObjList items]> h).
Proof.
  unfold sorted_st. unfold_st.
  destruct (h !! rules) as [[items| |]|]; try (left; reflexivity).
  pose proof (keys_st_frame items h) as Hk.
  destruct (keys_st items h) as [[ks|e] h']; cbn in Hk; subst.
  - right. eexists. reflexivity.
  - left. reflexivity.
Qed.

Lemma apply_rules_st_heap rules facts (h : heap) :
  snd (apply_rules_st rules facts h) = h
  \/ exists items,
       snd (apply_rules_st rules facts h)
       = <[fresh (dom h) := ObjList items]> h.
Proof.
  unfold apply_rules_st, mbind, st_bind.
  destruct (sorted_st_heap rules h) as [Hs|[items Hs]];
    destruct (sorted_st rules h) as [[l|e] h'] eqn:E; cbn in Hs; subst.
  - left. unfold load_list.
    destruct (h !! l) as [[]|]; try reflexivity.
    apply first_match_st_frame.
  - now left.
  - right. exists items. injection Hs as -> ->.
    unfold load_list. rewrite lookup_insert_eq.
    apply first_match_st_frame.
  - discriminate.
Qed.

Lemma fresh_unused (h : heap) : h !! fresh (dom h) = None.
Proof. apply not_elem_of_dom, is_fresh. Qed.

Lemma lookup_alloc (h : heap) (o o' : pyobj) (l : loc) :
  h !! l = Some o -> <[fresh (dom h) := o']> h !! l = Some o.
Proof.
  intros H. rewrite lookup_insert_ne; [assumption|].
  intros <-. rewrite fresh_unused in H. discriminate.
Qed.

Lemma rule_at_alloc (h : heap) (o : pyobj) (l : loc) (r : rule) :
  rule_at h l = Some r -> rule_at (<[fresh (dom h) := o]> h) l = Some r.
Proof.
  unfold rule_at. destruct (h !! l) as [o'|] eqn:E; [|discriminate].
  now rewrite (lookup_alloc _ _ _ _ E).
Qed.

Lemma rules_at_alloc (h : heap) (o : pyobj) (l : loc) (R : list rule) :
  rules_at h l = Some R -> rules_at (<[fresh (dom h) := o]> h) l = Some R.
Proof.
  unfold rules_at. destruct (h !! l) as [o'|] eqn:E; [|discriminate].
  rewrite (lookup_alloc _ _ _ _ E). destruct o'; try discriminate.
  rewrite !mapM_Some. intros H.
  eapply Forall2_impl; [exact H|]. intros x y. apply rule_at_alloc.
Qed.

Lemma facts_at_alloc (h : heap) (o : pyobj) (l : loc) F :
  facts_at h l = Some F -> facts_at (<[fresh (dom h) := o]> h) l = Some F.
Proof.
  unfold facts_at. destruct (h !! l) as [o'|] eqn:E; [|discriminate].
  now rewrite (lookup_alloc _ _ _ _ E).
Qed.

(** The engine on references computes what the engine on values computes
    from the objects the references stand for. *)
Lemma evaluate_condition_st_refines condition facts (h : heap) F :
  facts_at h facts = Some F ->
  evaluate_condition_st condition facts h = (evaluate_condition condition F, h).
Proof.
  unfold facts_at. intros HF.
  destruct condition as [|a [|b [|c [|d l]]]]; try reflexivity.
  cbn [evaluate_condition_st]. unfold_st.
  destruct (h !! facts) as [[]|]; try discriminate.
  injection HF as ->. reflexivity.
Qed.

Lemma all_conditions_st_refines conditions facts (h : heap) F :
  facts_at h facts = Some F ->
  all_conditions_st conditions facts h = (all_conditions conditions F, h).
Proof.
  intros HF. induction conditions as [|c cs IH]; [reflexivity|].
  cbn [all_conditions_st all_conditions]. unfold mbind at 1, st_bind.
  rewrite (evaluate_condition_st_refines _ _ _ _ HF).
  destruct (evaluate_condition c F) as [[]|e]; try reflexivity.
  exact IH.
Qed.

Lemma keys_st_refines items (h : heap) (R : list rule) :
  Forall2 (fun l r => rule_at h l = Some r) items R ->
  exists keyed,
    keys_st items h = (Ok keyed, h)
    /\ Forall2 (fun p r => rule_at h (snd p) = Some r /\ fst p = priority_key r)
         keyed R.
Proof.
  induction 1 as [|l r items R Hl _ (keyed & Hk & HR)].
  - exists []. split; [reflexivity|constructor].
  - exists ((priority_key r, l) :: keyed). split.
    + cbn [keys_st]. unfold_st. unfold rule_at in Hl.
      destruct (h !! l) as [[]|]; try discriminate.
      injection Hl as ->. now rewrite Hk.
    + constructor; [split; [assumption|reflexivity]|assumption].
Qed.

Lemma first_match_st_refines items facts (h : heap) (R : list rule) F :
  Forall2 (fun l r => rule_at h l = Some r) items R ->
  facts_at h facts = Some F ->
  first_match_st items facts h = (first_match R F, h).
Proof.
  intros HR HF. induction HR as [|l r items R Hl _ IH]; [reflexivity|].
  cbn [first_match_st first_match]. unfold mbind at 1, st_bind.
  unfold load_rule. unfold rule_at in Hl.
  destruct (h !! l) as [[]|]; try discriminate.
  injection Hl as ->.
  unfold mbind at 1, st_bind. unfold rule_matches.
  rewrite (all_conditions_st_refines _ _ _ _ HF).
  destruct (all_conditions (conditions_of r) F) as [[]|e]; try reflexivity.
  exact IH.
Qed.

Lemma apply_rules_st_refines rules facts (h : heap) (R : list rule) F :
  rules_at h rules = Some R ->
  facts_at h facts = Some F ->
  fst (apply_rules_st rules facts h) = apply_rules R F.
Proof.
  intros HR HF. unfold rules_at in HR.
  destruct (h !! rules) as [[items| |]|] eqn:E; try discriminate.
  apply mapM_Some in HR.
  destruct (keys_st_refines _ _ _ HR) as (keyed & Hk & Hkeyed).
  unfold apply_rules_st, sorted_st.
  unfold mbind at 1, st_bind. unfold mbind at 1, st_bind.
  unfold load_list at 1. rewrite E.
  unfold mbind at 1, st_bind. rewrite Hk. unfold alloc.
  unfold mbind at 1, st_bind. unfold load_list. rewrite lookup_insert_eq.
  set (o := ObjList _). set (h' := <[_ := o]> h).
  rewrite (first_match_st_refines _ _ h' (sorted_rules R) F).
  - reflexivity.
  - apply Forall2_fmap_l.
    eapply Forall2_impl.
    + apply (sorted_desc_Forall2 fst priority_key _ keyed R);
        [|exact Hkeyed].
      now intros p r [_ Hp].
    + intros p r [Hl _]. now apply rule_at_alloc.
  - now apply facts_at_alloc.
Qed.

(** C8. Neither function mutates its inputs. [evaluate_condition] leaves
    the heap as it is. After [apply_rules], every object the caller held
    is what it was, so the rules list has its items in their order, the
    rule records and the facts mapping are unchanged; the only change is
    the new list that [sorted] builds at an address that was not in use. *)
Theorem inputs_not_mutated
    (condition : list pyval) (rules facts : loc) (h : heap) :
  snd (evaluate_condition_st condition facts h) = h
  /\ (forall l o,
        h !! l = Some o -> snd (apply_rules_st rules facts h) !! l = Some o)
  /\ (forall R,
        rules_at h rules = Some R ->
        rules_at (snd (apply_rules_st rules facts h)) rules = Some R)
  /\ (forall F,
        facts_at h facts = Some F ->
        facts_at (snd (apply_rules_st rules facts h)) facts = Some F)
  /\ (snd (apply_rules_st rules facts h) = h
      \/ exists items,
           snd (apply_rules_st rules facts h)
           = <[fresh (dom h) := ObjList items]> h).
Proof.
  split; [apply evaluate_condition_st_frame|].
  destruct (apply_rules_st_heap rules facts h) as [->|[items ->]].
  - repeat split; auto.
  - repeat split.
    + intros l o. apply lookup_alloc.
    + intros R. apply rules_at_alloc.
    + intros F. apply facts_at_alloc.
    + right. now exists items.
Qed.

(** C9. [apply_rules] is deterministic: two calls whose rules and facts
    are the same return the same result, whatever else the heap holds and
    wherever the arguments are stored. *)
Theorem apply_rules_deterministic
    (h1 h2 : heap) (rules1 facts1 rules2 facts2 : loc)
    (R : list rule) (F : gmap string spec_float) :
  rules_at h1 rules1 = Some R -> facts_at h1 facts1 = Some F ->
  rules_at h2 rules2 = Some R -> facts_at h2 facts2 = Some F ->
  fst (apply_rules_st rules1 facts1 h1) = fst (apply_rules_st rules2 facts2 h2).
Proof.
  intros HR1 HF1 HR2 HF2.
  rewrite (apply_rules_st_refines _ _ _ _ _ HR1 HF1).
  now rewrite (apply_rules_st_refines _ _ _ _ _ HR2 HF2).
Qed.

(** ** The claims on concrete inputs *)

Lemma missing_field_is_false_witness :
  cgpa_only "3.5" !! py_str (PStr "unknown_field") = None
  /\ evaluate_condition [PStr "unknown_field"; PStr ">="; PInt 1]
       (cgpa_only "3.5") = Ok false.
Proof.
  assert (H : cgpa_only "3.5" !! py_str (PStr "unknown_field") = None)
    by (vm_compute; reflexivity).
  split; [exact H|].
  exact (missing_field_is_false (PStr "unknown_field") (PStr ">=") (PInt 1)
           (cgpa_only "3.5") H).
Defined.

Lemma wrong_arity_is_false_witness :
  length [PStr "cgpa"; PStr ">="] <> 3%nat
  /\ evaluate_condition [PStr "cgpa"; PStr ">="] (cgpa_only "3.8") = Ok false.
Proof.
  assert (H : length [PStr "cgpa"; PStr ">="] <> 3%nat) by (simpl; lia).
  split; [exact H|].
  exact (wrong_arity_is_false [PStr "cgpa"; PStr ">="] (cgpa_only "3.8") H).
Defined.

(** An applicant with a high CGPA and three disciplinary actions: the two
    rules of higher priority do not match, the third in priority order
    does. *)
Lemma apply_rules_first_match_by_priority_witness :
  sorted_rules DEFAULT_RULES
  = [rule_top_merit; rule_low_cgpa] ++ rule_disciplinary
      :: [rule_partial; rule_need_review]
  /\ apply_rules DEFAULT_RULES (applicant "3.8" "5000" "85" "50" "5" "3")
     = Ok (r_action rule_disciplinary, r_name rule_disciplinary).
Proof.
  pose (facts := applicant "3.8" "5000" "85" "50" "5" "3").
  assert (Hs : sorted_rules DEFAULT_RULES
               = [rule_top_merit; rule_low_cgpa] ++ rule_disciplinary
                   :: [rule_partial; rule_need_review])
    by (vm_compute; reflexivity).
  split; [exact Hs|].
  destruct (apply_rules_first_match_by_priority DEFAULT_RULES facts)
    as (_ & Hfirst & _).
  apply (Hfirst _ _ _ Hs).
  - repeat constructor; vm_compute; reflexivity.
  - vm_compute; reflexivity.
Defined.

Lemma empty_conditions_rule_matches_witness :
  r_conditions rule_catch_all = Some []
  /\ apply_rules (rule_catch_all :: DEFAULT_RULES)
       (applicant "2.7" "20000" "70" "50" "5" "0")
     = Ok (r_action rule_catch_all, r_name rule_catch_all).
Proof.
  split; [reflexivity|].
  refine (proj2 (empty_conditions_rule_matches
                   (rule_catch_all :: DEFAULT_RULES)
                   [rule_top_merit; rule_low_cgpa; rule_disciplinary;
                    rule_partial; rule_need_review] []
                   rule_catch_all _ eq_refl _ _)).
  - vm_compute; reflexivity.
  - repeat constructor; vm_compute; reflexivity.
Defined.

Lemma no_match_signal_witness :
  apply_rules DEFAULT_RULES (applicant "2.7" "20000" "70" "50" "5" "0")
  = Ok (None, None).
Proof.
  apply no_match_signal.
  intros r Hr. repeat (destruct Hr as [<-|Hr]; [vm_compute; reflexivity|]).
  destruct Hr.
Defined.

Lemma absent_keys_take_defaults_witness :
  priority_key rule_no_priority = 0
  /\ apply_rules [rule_low_cgpa; rule_no_priority; rule_no_conditions]
       (cgpa_only "3.8")
     = apply_rules
         [rule_low_cgpa; rule_no_priority; set_conditions [] rule_no_conditions]
         (cgpa_only "3.8").
Proof.
  split.
  - exact (proj1 (proj1 (absent_keys_take_defaults [] [] rule_no_priority ∅)
                    eq_refl)).
  - exact (proj2 (proj2 (absent_keys_take_defaults
                           [rule_low_cgpa; rule_no_priority] []
                           rule_no_conditions (cgpa_only "3.8"))
                    eq_refl)).
Defined.

Lemma inputs_not_mutated_witness :
  let h := caller_heap (applicant "3.8" "5000" "85" "50" "5" "0") in
  rules_at h 6%positive = Some DEFAULT_RULES
  /\ rules_at (snd (apply_rules_st 6%positive 7%positive h)) 6%positive
     = Some DEFAULT_RULES.
Proof.
  intros h.
  assert (H : rules_at h 6%positive = Some DEFAULT_RULES)
    by (vm_compute; reflexivity).
  split; [exact H|].
  destruct (inputs_not_mutated [] 6%positive 7%positive h)
    as (_ & _ & Hrules & _).
  exact (Hrules _ H).
Defined.

(** Two calls in a row, the second on the heap that the first one leaves. *)
Lemma apply_rules_deterministic_witness :
  let F := applicant "3.8" "5000" "85" "50" "5" "0" in
  let h := caller_heap F in
  let h' := snd (apply_rules_st 6%positive 7%positive h) in
  fst (apply_rules_st 6%positive 7%positive h)
  = fst (apply_rules_st 6%positive 7%positive h').
Proof.
  intros F h h'.
  assert (H1 : rules_at h 6%positive = Some DEFAULT_RULES) by reflexivity.
  assert (H2 : facts_at h 7%positive = Some F) by reflexivity.
  assert (H3 : rules_at h' 6%positive = Some DEFAULT_RULES) by reflexivity.
  assert (H4 : facts_at h' 7%positive = Some F) by reflexivity.
  exact (apply_rules_deterministic h h' _ _ _ _ DEFAULT_RULES F H1 H2 H3 H4).
Defined.
